(** * Real-time ticker poller: statistics, rolling history and the poll loop

    Shallow embedding of [real_time_data_analysis.py].

    The script fetches a ticker (a JSON object: currency -> record), prints
    mean / median / standard deviation of the [buy] prices, keeps the last
    five buy prices of every currency in a dictionary and sleeps.

    Modelling choices.
    - Python dictionaries are finite maps ([gmap]).  A dictionary iterates
      in insertion order, [map_to_list] in a fixed order of its own; every
      loop of the script writes one key per round, so the dictionary that
      a completed call leaves does not depend on the order.  The order of
      the printed trend lines, and the dictionary left when a loop is cut
      short by an exception, do depend on it: the properties below are
      stated on the dictionaries, and on the printed lines up to their
      order.
    - The history dictionaries are mutable objects reached through
      references: there is one at module level and one local to
      [poll_api].  They live in a heap and the functions receive a
      location, as the Python functions receive a reference.
    - The script copies and prints the prices and does no arithmetic on
      them; they are rationals here, as every JSON integer and every
      finite double is one.  The statistics are float64 numbers that numpy
      computes: the model records which function was applied to which
      values and does not compute them.
    - Uncaught Python exceptions are results [Raise e]; the state reached
      before the exception is kept.
    - [while True] never returns.  The loop is run against the list of
      responses the server gives to the successive [requests.get] calls,
      and stops when that list is used up: a run is a finite prefix of the
      real execution. *)

From Stdlib Require Import QArith Lia.
From stdpp Require Import gmap strings list fin_maps.

Open Scope string_scope.
Open Scope list_scope.
Open Scope nat_scope.

(** ** Data *)

(** One ticker record, e.g. [{"15m": .., "last": .., "buy": .., "sell": ..}]. *)
Abbreviation Details := (gmap string Q).

(** The parsed body of one response: currency -> record. *)
Abbreviation Snapshot := (gmap string (gmap string Q)).

(** currency -> recent buy prices, oldest first. *)
Abbreviation History := (gmap string (list Q)).

Abbreviation loc := nat.

Inductive exn : Type :=
  | JSONDecodeError
  | KeyError (key : string).

(** What [requests.get] returns: the status code and, when the body is
    valid JSON, what [response.json()] parses it to. *)
Record response : Type := Response {
  status_code : Z;
  json_body : option Snapshot
}.

(** The three functions of numpy that the script calls. *)
Inductive numpy_function : Type :=
  | Mean
  | Median
  | Std.

(** A float64 that numpy computed: the function and the values it was given.
    The number itself (rounded, possibly infinite or [nan]) is left
    uninterpreted. *)
Record float64 : Type := Float64 {
  computed_by : numpy_function;
  computed_on : list Q
}.

(** Lines written by [print]; numbers are kept as numbers, their
    formatting is not modelled.  [None] is the [nan] that numpy returns for
    no value. *)
Inductive line : Type :=
  | Separator
  | NewDataReceived (real_time_data : Snapshot)
  | MeanBuyPrice (v : option float64)
  | MedianBuyPrice (v : option float64)
  | StdDevBuyPrices (v : option float64)
  | Trend (currency : string) (prices : list Q)
  | ErrorFetchingData (status : Z).

Inductive event : Type :=
  | Get (url : string)
  | Print (l : line)
  | Sleep (seconds : Z).

Record world : Type := World {
  heap : list History;
  out : list event
}.

Inductive result (A : Type) : Type :=
  | Ok (a : A)
  | Raise (e : exn).
Arguments Ok {A} a.
Arguments Raise {A} e.

(** ** The monad of the script: state, output and exceptions *)

Definition M (A : Type) : Type := world → result A * world.

#[global] Instance M_ret : MRet M := λ A a w, (Ok a, w).

#[global] Instance M_bind : MBind M := λ A B f m w,
  match m w with
  | (Ok a, w') => f a w'
  | (Raise e, w') => (Raise e, w')
  end.

Definition raise {A} (e : exn) : M A := λ w, (Raise e, w).

Definition emit (e : event) : M unit :=
  λ w, (Ok tt, World (heap w) (out w ++ [e])).

Definition print (l : line) : M unit := emit (Print l).

Definition time_sleep (seconds : Z) : M unit := emit (Sleep seconds).

(** [{}]: a new dictionary object. *)
Definition new_dict : M loc :=
  λ w, (Ok (length (heap w)), World (heap w ++ [∅]) (out w)).

Definition load (l : loc) : M History :=
  λ w, (Ok (default ∅ (heap w !! l)), w).

Definition store (l : loc) (h : History) : M unit :=
  λ w, (Ok tt, World (<[l := h]> (heap w)) (out w)).

(** [d[key]] on a record. *)
Definition getitem (d : Details) (key : string) : M Q :=
  match d !! key with
  | Some v => mret v
  | None => raise (KeyError key)
  end.

(** [for x in xs: body x] *)
Fixpoint for_each {A} (xs : list A) (body : A → M unit) : M unit :=
  match xs with
  | [] => mret tt
  | x :: rest => body x ;; for_each rest body
  end.

(** [[f x for x in xs]] *)
Fixpoint comprehension {A B} (f : A → M B) (xs : list A) : M (list B) :=
  match xs with
  | [] => mret []
  | x :: rest => y ← f x; ys ← comprehension f rest; mret (y :: ys)
  end.

(** ** numpy

    numpy is not part of the repository and computes in float64 (the mean
    of three prices 0.1 comes out as 0.10000000000000002).  What the model
    keeps of [np.mean], [np.median] and [np.std] is what the script relies
    on: called on a list of numbers they return, and do not raise; for no
    value the result is [nan]. *)

Definition numpy (f : numpy_function) (a : list Q) : option float64 :=
  match a with
  | [] => None
  | _ => Some (Float64 f a)
  end.

Definition np_mean : list Q → option float64 := numpy Mean.

Definition np_median : list Q → option float64 := numpy Median.

Definition np_std : list Q → option float64 := numpy Std.

(** ** calculate_statistics *)

Definition dict_values {A} (d : gmap string A) : list A := (map_to_list d).*2.

Definition dict_keys {A} (d : gmap string A) : list string := (map_to_list d).*1.

Definition calculate_statistics (real_time_data : Snapshot) : M unit :=
  buy_prices ← comprehension (λ details, getitem details "buy")
                             (dict_values real_time_data);
  let mean_price := np_mean buy_prices in
  let median_price := np_median buy_prices in
  let std_dev_price := np_std buy_prices in
  print (MeanBuyPrice mean_price);;
  print (MedianBuyPrice median_price);;
  print (StdDevBuyPrices std_dev_price).

(** ** track_price_changes *)

(** [l[-n:]] for a positive [n]. *)
Definition slice_last {A} (n : nat) (l : list A) : list A :=
  drop (length l - n) l.

Definition history_size : nat := 5.

(** The lists stored in the dictionary are created here ([[]], the slice)
    and reached through the dictionary only, so they are kept as values
    inside it. *)

(** Lines 34-36, the body of the first loop.  [details['buy']] is
    evaluated after the sequence was looked up, hence after line 35. *)
Definition record_buy (prices_over_time : loc) (item : string * Details) : M unit :=
  let '(currency, details) := item in
  h ← load prices_over_time;
  (if decide (currency ∉ dom h)
   then store prices_over_time (<[currency := []]> h)
   else mret tt);;
  h ← load prices_over_time;
  buy ← getitem details "buy";
  store prices_over_time (<[currency := h !!! currency ++ [buy]]> h).

(** Line 41, the body of the second loop. *)
Definition trim (prices_over_time : loc) (currency : string) : M unit :=
  h ← load prices_over_time;
  store prices_over_time
        (<[currency := slice_last history_size (h !!! currency)]> h).

(** Lines 45-46, the body of the third loop. *)
Definition print_trend (item : string * list Q) : M unit :=
  let '(currency, prices) := item in print (Trend currency prices).

Definition track_price_changes (real_time_data : Snapshot)
    (prices_over_time : loc) : M unit :=
  for_each (map_to_list real_time_data) (record_buy prices_over_time);;
  h ← load prices_over_time;
  for_each (dict_keys h) (trim prices_over_time);;
  h ← load prices_over_time;
  for_each (map_to_list h) print_trend.

(** ** poll_api *)

(** [response.json()] *)
Definition response_json (r : response) : M Snapshot :=
  match json_body r with
  | Some data => mret data
  | None => raise JSONDecodeError
  end.

(** One round of the [while True] loop, on the response that
    [requests.get] returned. *)
Definition poll_iteration (api_url : string) (prices_over_time : loc)
    (r : response) : M unit :=
  emit (Get api_url);;
  if decide (status_code r = 200%Z) then
    real_time_data ← response_json r;
    print Separator;;
    print (NewDataReceived real_time_data);;
    print Separator;;
    calculate_statistics real_time_data;;
    track_price_changes real_time_data prices_over_time;;
    time_sleep 10
  else
    print (ErrorFetchingData (status_code r)).

Definition poll_loop (api_url : string) (prices_over_time : loc)
    (responses : list response) : M unit :=
  for_each responses (poll_iteration api_url prices_over_time).

Definition poll_api (api_url : string) (responses : list response) : M unit :=
  prices_over_time ← new_dict;
  poll_loop api_url prices_over_time responses.

(** ** The module *)

Definition real_time_api_url : string := "https://blockchain.info/ticker".

(** Location of the module-level [prices_over_time] (line 29): the first
    object the module creates. *)
Definition module_prices_over_time : loc := 0%nat.

Definition initial_world : world := World [] [].

(** The module body: the global dictionary, then the call of [poll_api]. *)
Definition main (responses : list response) : M unit :=
  _ ← new_dict;
  poll_api real_time_api_url responses.

(** ** Vocabulary of the properties *)

(** Every record of the ticker has a [buy] field. *)
Definition has_buy (real_time_data : Snapshot) : Prop :=
  map_Forall (λ _ details, is_Some (details !! "buy")) real_time_data.

#[global] Instance has_buy_dec real_time_data : Decision (has_buy real_time_data).
Proof. unfold has_buy. apply _. Defined.

(** The buy price of a currency in a ticker. *)
Definition buy_price (real_time_data : Snapshot) (currency : string) : option Q :=
  details ← real_time_data !! currency; details !! "buy".

(** The buy prices of a ticker, in the order of its values. *)
Definition buy_prices_of (real_time_data : Snapshot) : list Q :=
  omap (λ details : gmap string Q, details !! "buy") (dict_values real_time_data).

(** The buy prices a currency had in a sequence of tickers, oldest first. *)
Definition seen (currency : string) (snapshots : list Snapshot) : list Q :=
  omap (λ s, buy_price s currency) snapshots.

(** The lines that end [track_price_changes]. *)
Definition trend_lines (h : History) : list event :=
  map (λ '(currency, prices), Print (Trend currency prices)) (map_to_list h).

(** The sequence kept for a currency ([[]] when there is none). *)
Definition sequence_of (h : History) (currency : string) : list Q :=
  default [] (h !! currency).

(** Every sequence of the dictionary has at most [history_size] prices. *)
Definition bounded (h : History) : Prop :=
  map_Forall (λ _ prices, length prices ≤ history_size) h.

#[global] Instance bounded_dec h : Decision (bounded h).
Proof. unfold bounded. apply _. Defined.

(** Feeding tickers to [track_price_changes] one after the other. *)
Definition track_all (snapshots : list Snapshot) (prices_over_time : loc) : M unit :=
  for_each snapshots (λ s, track_price_changes s prices_over_time).

(** [w'] differs from [w] in the object at [l] at most; no object was
    created. *)
Definition only_writes (l : loc) (w w' : world) : Prop :=
  length (heap w') = length (heap w)
  ∧ ∀ l', l' ≠ l → heap w' !! l' = heap w !! l'.

(** Whatever its outcome, the computation writes the object at [l] only. *)
Definition writes_only {A} (l : loc) (m : M A) : Prop :=
  ∀ w, only_writes l w (m w).2.

(** The response is the one of a failed fetch. *)
Definition fetch_failed (r : response) : Prop := status_code r ≠ 200%Z.

(** The body of a 200 response cannot be used: it is no JSON, or a record
    has no [buy]. *)
Definition malformed (r : response) : Prop :=
  match json_body r with
  | None => True
  | Some real_time_data => ¬ has_buy real_time_data
  end.

(** The exception a malformed body ends in. *)
Definition fault_of (r : response) : exn :=
  match json_body r with
  | None => JSONDecodeError
  | Some _ => KeyError "buy"
  end.

(** A ticker given by the buy price of each currency. *)
Definition ticker (prices : list (string * Q)) : Snapshot :=
  list_to_map (map (λ '(currency, buy), (currency, {[ "buy" := buy ]})) prices).

(** The response lets its round finish: the fetch failed, or the body is a
    ticker whose records all have [buy]. *)
Definition usable (r : response) : Prop :=
  if decide (status_code r = 200%Z)
  then match json_body r with
       | Some real_time_data => has_buy real_time_data
       | None => False
       end
  else True.

#[global] Instance usable_dec r : Decision (usable r).
Proof. unfold usable. case_decide; [destruct (json_body r)|]; apply _. Defined.

(** The tickers of the 200 responses, in the order they were fetched. *)
Definition fetched (responses : list response) : list Snapshot :=
  omap (λ r, if decide (status_code r = 200%Z) then json_body r else None)
       responses.

(** The events the script is written to produce: requests to the ticker
    URL, sleeps of 10 seconds, printed lines. *)
Definition script_event (e : event) : Prop :=
  match e with
  | Get url => url = real_time_api_url
  | Sleep seconds => seconds = 10%Z
  | Print _ => True
  end.

(** Whatever its outcome, the computation keeps the output it finds and
    adds events of [P] only. *)
Definition emits_only {A} (P : event → Prop) (m : M A) : Prop :=
  ∀ w, ∃ trace, out (m w).2 = out w ++ trace ∧ Forall P trace.

(** The loop slept between the events of a trace: some [Sleep] is in it. *)
Definition sleeps (trace : list event) : bool :=
  existsb (λ e, match e with Sleep _ => true | _ => false end) trace.

(** * Properties *)

(** ** Running the monad *)

Lemma run_bind {A B} (m : M A) (f : A → M B) (w : world) :
  (m ≫= f) w =
  match m w with
  | (Ok a, w') => f a w'
  | (Raise e, w') => (Raise e, w')
  end.
Proof. reflexivity. Qed.

Lemma run_ret {A} (a : A) (w : world) : (mret a : M A) w = (Ok a, w).
Proof. reflexivity. Qed.

Lemma for_each_app {A} (xs ys : list A) (body : A → M unit) (w : world) :
  for_each (xs ++ ys) body w =
  match for_each xs body w with
  | (Ok _, w') => for_each ys body w'
  | (Raise e, w') => (Raise e, w')
  end.
Proof.
  revert w. induction xs as [|x xs IH]; intros w; simpl.
  - reflexivity.
  - rewrite !run_bind. destruct (body x w) as [[[]|e] w1]; [apply IH | reflexivity].
Qed.

Lemma for_each_cons {A} (x : A) (xs : list A) (body : A → M unit) (w : world) :
  for_each (x :: xs) body w =
  match body x w with
  | (Ok _, w') => for_each xs body w'
  | (Raise e, w') => (Raise e, w')
  end.
Proof. reflexivity. Qed.

Lemma world_eta (w : world) : World (heap w) (out w) = w.
Proof. destruct w; reflexivity. Qed.

(** ** Slices *)

Section slices.
Context {A : Type}.
Implicit Types l k : list A.

Lemma slice_last_length n l : length (slice_last n l) = Nat.min (length l) n.
Proof. unfold slice_last. rewrite length_drop. lia. Qed.

Lemma slice_last_short n l : length l ≤ n → slice_last n l = l.
Proof.
  intros H. unfold slice_last. replace (length l - n)%nat with 0%nat by lia.
  reflexivity.
Qed.

Lemma slice_last_app n l k :
  slice_last n (slice_last n l ++ k) = slice_last n (l ++ k).
Proof.
  unfold slice_last.
  rewrite !drop_app, drop_drop, !length_app, !length_drop.
  f_equal; f_equal; lia.
Qed.

Lemma drop_past l k x : drop (S (length l)) (l ++ x :: k) = k.
Proof.
  rewrite drop_app_ge by lia.
  by replace (S (length l) - length l) with 1 by lia.
Qed.

Lemma slice_last_idemp n l : slice_last n (slice_last n l) = slice_last n l.
Proof.
  pose proof (slice_last_app n l []) as H. rewrite !app_nil_r in H. exact H.
Qed.

Lemma slice_last_snoc n l x :
  (0 < n)%nat → last (slice_last n (l ++ [x])) = Some x.
Proof.
  intros Hn. unfold slice_last. rewrite length_app. simpl.
  rewrite drop_app_le by lia. apply last_snoc.
Qed.
End slices.

(** ** The three loops of [track_price_changes] *)

Lemma heap_insert_lookup (hp : list History) (l : loc) (h h' : History) :
  hp !! l = Some h → <[l := h']> hp !! l = Some h'.
Proof.
  intros H. apply list_lookup_insert_eq. eapply lookup_lt_Some, H.
Qed.

(** The sequence that line 36 leaves for a currency of the ticker. *)
Lemma record_buy_ok l currency details buy w h :
  heap w !! l = Some h →
  details !! "buy" = Some buy →
  record_buy l (currency, details) w =
    (Ok tt, World (<[l := <[currency := sequence_of h currency ++ [buy]]> h]> (heap w))
                  (out w)).
Proof.
  intros Hl Hbuy. unfold record_buy, getitem, sequence_of.
  rewrite run_bind. unfold load at 1. rewrite Hl. simpl.
  destruct (decide (currency ∉ dom h)) as [Hnew|Hold].
  - rewrite run_bind. unfold store at 1. simpl.
    rewrite run_bind. unfold load at 1. simpl.
    rewrite (heap_insert_lookup _ _ h _ Hl). simpl.
    rewrite Hbuy, run_bind, run_ret. unfold store. simpl.
    rewrite list_insert_insert_eq, insert_insert_eq.
    rewrite lookup_total_insert_eq.
    apply not_elem_of_dom in Hnew. rewrite Hnew. reflexivity.
  - rewrite run_bind, run_ret. rewrite run_bind. unfold load at 1. simpl.
    rewrite Hl. simpl. rewrite Hbuy, run_bind, run_ret. unfold store. simpl.
    apply dec_stable in Hold. apply elem_of_dom in Hold as [s Hs].
    rewrite lookup_total_alt, Hs. reflexivity.
Qed.

Lemma first_loop_ok l (items : list (string * Details)) :
  ∀ w h,
    heap w !! l = Some h →
    NoDup items.*1 →
    Forall (λ item, is_Some (item.2 !! "buy")) items →
    ∃ h1,
      for_each items (record_buy l) w
        = (Ok tt, World (<[l := h1]> (heap w)) (out w))
      ∧ ∀ c, h1 !! c =
             match buy_price (list_to_map items) c with
             | Some b => Some (sequence_of h c ++ [b])
             | None => h !! c
             end.
Proof.
  induction items as [|[c0 d0] items IH]; intros w h Hl Hnd Hbuy.
  - exists h. split.
    + simpl. rewrite run_ret, list_insert_id by done. by rewrite world_eta.
    + intros c. unfold buy_price. simpl. by rewrite lookup_empty.
  - apply NoDup_cons in Hnd as [Hfresh Hnd].
    apply Forall_cons in Hbuy as [[b0 Hb0] Hbuy]. simpl in Hb0.
    set (hb := <[c0 := sequence_of h c0 ++ [b0]]> h).
    destruct (IH (World (<[l := hb]> (heap w)) (out w)) hb) as (h1 & Hrun & Hh1);
      [by eapply heap_insert_lookup | done | done |].
    exists h1. split.
    + rewrite for_each_cons, (record_buy_ok _ _ _ b0 _ h) by done.
      fold hb. rewrite Hrun. simpl. by rewrite list_insert_insert_eq.
    + intros c. rewrite Hh1. unfold buy_price. simpl.
      destruct (decide (c = c0)) as [->|Hne].
      * rewrite lookup_insert_eq. simpl. rewrite Hb0.
        rewrite (not_elem_of_list_to_map_1 _ c0) by done. simpl.
        unfold hb. by rewrite lookup_insert_eq.
      * rewrite lookup_insert_ne by done.
        unfold sequence_of, hb. by rewrite lookup_insert_ne.
Qed.

Lemma trim_ok l currency w h :
  heap w !! l = Some h →
  trim l currency w =
    (Ok tt, World (<[l := <[currency := slice_last history_size (h !!! currency)]> h]>
                     (heap w)) (out w)).
Proof.
  intros Hl. unfold trim. rewrite run_bind. unfold load, store. simpl.
  by rewrite Hl.
Qed.

Lemma second_loop_ok l (keys : list string) :
  ∀ w h,
    heap w !! l = Some h →
    NoDup keys →
    Forall (λ c, is_Some (h !! c)) keys →
    ∃ h2,
      for_each keys (trim l) w = (Ok tt, World (<[l := h2]> (heap w)) (out w))
      ∧ ∀ c, h2 !! c = if decide (c ∈ keys)
                       then slice_last history_size <$> h !! c
                       else h !! c.
Proof.
  induction keys as [|k keys IH]; intros w h Hl Hnd Hin.
  - exists h. split.
    + simpl. rewrite run_ret, list_insert_id by done. by rewrite world_eta.
    + intros c. rewrite decide_False; [done | apply not_elem_of_nil].
  - apply NoDup_cons in Hnd as [Hfresh Hnd].
    apply Forall_cons in Hin as [[s Hs] Hin].
    set (ha := <[k := slice_last history_size (h !!! k)]> h).
    assert (Forall (λ c, is_Some (ha !! c)) keys) as Hin'.
    { eapply Forall_impl; [exact Hin|]. intros c [x Hx]. unfold ha.
      destruct (decide (k = c)) as [->|Hne].
      - rewrite lookup_insert_eq. eauto.
      - rewrite lookup_insert_ne by done. eauto. }
    destruct (IH (World (<[l := ha]> (heap w)) (out w)) ha) as (h2 & Hrun & Hh2);
      [by eapply heap_insert_lookup | done | done |].
    exists h2. split.
    + rewrite for_each_cons, (trim_ok _ _ _ h) by done.
      fold ha. rewrite Hrun. simpl. by rewrite list_insert_insert_eq.
    + intros c. rewrite Hh2. destruct (decide (c = k)) as [->|Hne].
      * rewrite decide_False by done. rewrite decide_True by apply list_elem_of_here.
        unfold ha. rewrite lookup_insert_eq, lookup_total_alt, Hs. done.
      * unfold ha. rewrite lookup_insert_ne by done.
        destruct (decide (c ∈ keys)) as [Hc|Hc].
        -- rewrite decide_True by (by apply list_elem_of_further). done.
        -- rewrite decide_False; [done|].
           intros [?|?]%elem_of_cons; done.
Qed.

Lemma third_loop_ok (items : list (string * list Q)) :
  ∀ w, for_each items print_trend w =
       (Ok tt, World (heap w)
                     (out w ++ map (λ '(currency, prices), Print (Trend currency prices))
                                   items)).
Proof.
  induction items as [|[c p] items IH]; intros w.
  - simpl. by rewrite run_ret, app_nil_r, world_eta.
  - rewrite for_each_cons. unfold print_trend at 1, print, emit.
    rewrite IH. simpl. by rewrite <- app_assoc.
Qed.

(** ** What one call of [track_price_changes] does

    On a ticker whose records all have [buy], the call returns, the
    dictionary it was given becomes [h'], the other objects and the earlier
    output are kept, and [h'] is: the old sequence with the buy price
    appended for a currency of the ticker, the old sequence otherwise, cut
    to its last [history_size] prices in both cases. *)
Lemma track_price_changes_ok (real_time_data : Snapshot) l w h :
  has_buy real_time_data →
  heap w !! l = Some h →
  ∃ h',
    track_price_changes real_time_data l w
      = (Ok tt, World (<[l := h']> (heap w)) (out w ++ trend_lines h'))
    ∧ ∀ c, h' !! c =
           slice_last history_size <$>
             match buy_price real_time_data c with
             | Some b => Some (sequence_of h c ++ [b])
             | None => h !! c
             end.
Proof.
  intros Hbuy Hl.
  destruct (first_loop_ok l (map_to_list real_time_data) w h Hl)
    as (h1 & Hrun1 & Hh1).
  { apply NoDup_fst_map_to_list. }
  { apply Forall_forall. intros [c d] Hcd%elem_of_map_to_list.
    exact (Hbuy c d Hcd). }
  rewrite list_to_map_to_list in Hh1.
  set (w1 := World (<[l := h1]> (heap w)) (out w)) in *.
  assert (heap w1 !! l = Some h1) as Hl1 by (by eapply heap_insert_lookup).
  destruct (second_loop_ok l (dict_keys h1) w1 h1 Hl1) as (h2 & Hrun2 & Hh2).
  { apply NoDup_fst_map_to_list. }
  { apply Forall_forall. intros c Hc. unfold dict_keys in Hc.
    apply list_elem_of_fmap in Hc as ([c' s] & -> & Hcs%elem_of_map_to_list).
    simpl. eauto. }
  exists h2. split.
  - unfold track_price_changes.
    rewrite run_bind, Hrun1. fold w1.
    rewrite run_bind. unfold load at 1. rewrite Hl1. simpl.
    rewrite run_bind, Hrun2.
    rewrite run_bind. unfold load at 1. simpl.
    rewrite (heap_insert_lookup _ _ h1 _ Hl1). simpl.
    rewrite third_loop_ok. simpl. by rewrite !list_insert_insert_eq.
  - intros c. rewrite Hh2, <- Hh1.
    destruct (decide (c ∈ dict_keys h1)) as [Hc|Hc]; [done|].
    destruct (h1 !! c) as [s|] eqn:Hs; [|done].
    exfalso. apply Hc. unfold dict_keys. apply list_elem_of_fmap.
    exists (c, s). split; [done|]. by apply elem_of_map_to_list.
Qed.

Lemma buy_price_present (real_time_data : Snapshot) c details b :
  real_time_data !! c = Some details → details !! "buy" = Some b →
  buy_price real_time_data c = Some b.
Proof. intros Hc Hb. unfold buy_price. rewrite Hc. exact Hb. Qed.

Lemma buy_price_absent (real_time_data : Snapshot) c :
  real_time_data !! c = None → buy_price real_time_data c = None.
Proof. intros Hc. unfold buy_price. by rewrite Hc. Qed.

Lemma bounded_slices (h' : History) :
  (∀ c, ∃ o, h' !! c = slice_last history_size <$> o) → bounded h'.
Proof.
  intros Hh' c s Hs. destruct (Hh' c) as [o Ho]. rewrite Hs in Ho.
  destruct o as [s0|]; [|done]. injection Ho as ->.
  rewrite slice_last_length. lia.
Qed.

(** ** The rolling history *)

(** C2.  After a call of [track_price_changes] on a ticker, every currency
    of the ticker has a sequence in the dictionary, its last element is the
    buy price the ticker gives for that currency and it has at most 5
    elements; and every sequence of the dictionary has at most 5 elements,
    whatever the dictionary was before the call. *)
Theorem history_invariant (real_time_data : Snapshot) (l : loc) (w : world)
    (h : History) :
  has_buy real_time_data →
  heap w !! l = Some h →
  ∃ w' h',
    track_price_changes real_time_data l w = (Ok tt, w')
    ∧ heap w' !! l = Some h'
    ∧ (∀ c details, real_time_data !! c = Some details →
         ∃ b s, details !! "buy" = Some b ∧ h' !! c = Some s
                ∧ last s = Some b ∧ length s ≤ 5)
    ∧ (∀ c s, h' !! c = Some s → length s ≤ 5).
Proof.
  intros Hbuy Hl.
  destruct (track_price_changes_ok _ l w h Hbuy Hl) as (h' & Hrun & Hh').
  eexists _, h'. split; [exact Hrun|]. split.
  { simpl. by eapply heap_insert_lookup. }
  split.
  - intros c details Hc. destruct (Hbuy c details Hc) as [b Hb].
    exists b, (slice_last history_size (sequence_of h c ++ [b])).
    split; [done|]. split.
    + by rewrite Hh', (buy_price_present _ _ _ _ Hc Hb).
    + split.
      * apply slice_last_snoc. unfold history_size. lia.
      * rewrite slice_last_length. unfold history_size. lia.
  - intros c s Hs. apply (bounded_slices h') in Hs; [exact Hs|].
    intros c'. eexists. apply Hh'.
Qed.

(** C4.  The cut to the last 5 prices reaches every currency of the
    dictionary: a currency that the ticker does not have keeps its
    sequence, cut and with nothing appended; a currency of the ticker has
    its buy price appended and the result cut; no other currency appears. *)
Theorem trim_reaches_every_currency (real_time_data : Snapshot) (l : loc)
    (w : world) (h : History) :
  has_buy real_time_data →
  heap w !! l = Some h →
  ∃ w' h',
    track_price_changes real_time_data l w = (Ok tt, w')
    ∧ heap w' !! l = Some h'
    ∧ (∀ c s, real_time_data !! c = None → h !! c = Some s →
         h' !! c = Some (slice_last 5 s))
    ∧ (∀ c details b, real_time_data !! c = Some details →
         details !! "buy" = Some b →
         h' !! c = Some (slice_last 5 (sequence_of h c ++ [b])))
    ∧ (∀ c, real_time_data !! c = None → h !! c = None → h' !! c = None).
Proof.
  intros Hbuy Hl.
  destruct (track_price_changes_ok _ l w h Hbuy Hl) as (h' & Hrun & Hh').
  eexists _, h'. split; [exact Hrun|]. split.
  { simpl. by eapply heap_insert_lookup. }
  repeat split.
  - intros c s Hc Hs. by rewrite Hh', (buy_price_absent _ _ Hc), Hs.
  - intros c details b Hc Hb. by rewrite Hh', (buy_price_present _ _ _ _ Hc Hb).
  - intros c Hc Hs. by rewrite Hh', (buy_price_absent _ _ Hc), Hs.
Qed.

(** C5.  Two calls in a row on the same ticker append the buy price twice:
    a currency of the ticker ends with the last 5 elements of its old
    sequence followed by the price twice, which is two elements longer than
    before, capped at 5. *)
Theorem same_snapshot_twice (real_time_data : Snapshot) (l : loc) (w : world)
    (h : History) :
  has_buy real_time_data →
  heap w !! l = Some h →
  ∃ w' h',
    (track_price_changes real_time_data l;;
     track_price_changes real_time_data l) w = (Ok tt, w')
    ∧ heap w' !! l = Some h'
    ∧ ∀ c details b, real_time_data !! c = Some details →
        details !! "buy" = Some b →
        h' !! c = Some (slice_last 5 (sequence_of h c ++ [b; b]))
        ∧ length (sequence_of h' c) = Nat.min (length (sequence_of h c) + 2) 5.
Proof.
  intros Hbuy Hl.
  destruct (track_price_changes_ok _ l w h Hbuy Hl) as (h1 & Hrun1 & Hh1).
  set (w1 := World (<[l := h1]> (heap w)) (out w ++ trend_lines h1)) in *.
  assert (heap w1 !! l = Some h1) as Hl1 by (by eapply heap_insert_lookup).
  destruct (track_price_changes_ok _ l w1 h1 Hbuy Hl1) as (h2 & Hrun2 & Hh2).
  eexists _, h2. split; [by rewrite run_bind, Hrun1, Hrun2|]. split.
  { simpl. by eapply heap_insert_lookup. }
  intros c details b Hc Hb.
  assert (h2 !! c = Some (slice_last 5 (sequence_of h c ++ [b; b]))) as Hc2.
  { rewrite Hh2, (buy_price_present _ _ _ _ Hc Hb). simpl.
    unfold sequence_of at 1.
    rewrite Hh1, (buy_price_present _ _ _ _ Hc Hb). simpl.
    rewrite slice_last_app, <- app_assoc. reflexivity. }
  split; [exact Hc2|].
  unfold sequence_of at 1. rewrite Hc2. simpl.
  rewrite slice_last_length, length_app. simpl. lia.
Qed.

(** C10.  On an empty ticker, and a dictionary whose sequences all have at
    most 5 elements, the call returns and leaves every object as it was,
    the dictionary included: nothing is appended and the cut changes
    nothing.  It only prints the trend lines of the dictionary, one for each
    currency, in some order. *)
Theorem empty_snapshot_identity (l : loc) (w : world) (h : History) :
  heap w !! l = Some h →
  (∀ c s, h !! c = Some s → length s ≤ 5) →
  ∃ w' printed,
    track_price_changes ∅ l w = (Ok tt, w')
    ∧ heap w' = heap w
    ∧ heap w' !! l = Some h
    ∧ out w' = out w ++ printed
    ∧ printed ≡ₚ trend_lines h.
Proof.
  intros Hl Hbounded.
  destruct (track_price_changes_ok ∅ l w h) as (h' & Hrun & Hh');
    [apply map_Forall_empty | done |].
  assert (h' = h) as ->.
  { apply map_eq. intros c. rewrite Hh', buy_price_absent by apply lookup_empty.
    destruct (h !! c) as [s|] eqn:Hs; [|done]. simpl.
    by rewrite slice_last_short by (apply (Hbounded c s Hs)). }
  eexists _, (trend_lines h). split; [exact Hrun|]. cbn [heap out].
  rewrite list_insert_id by exact Hl. done.
Qed.

Lemma seen_snoc c (snapshots : list Snapshot) (s : Snapshot) :
  seen c (snapshots ++ [s]) =
  seen c snapshots ++ match buy_price s c with Some b => [b] | None => [] end.
Proof.
  unfold seen. rewrite omap_app. simpl. by destruct (buy_price s c).
Qed.

(** The dictionary after a sequence of tickers, started empty. *)
Lemma track_all_ok (l : loc) (snapshots : list Snapshot) :
  ∀ w,
    Forall has_buy snapshots →
    heap w !! l = Some ∅ →
    ∃ w' h',
      track_all snapshots l w = (Ok tt, w')
      ∧ heap w' !! l = Some h'
      ∧ ∀ c, h' !! c = match seen c snapshots with
                       | [] => None
                       | _ => Some (slice_last history_size (seen c snapshots))
                       end.
Proof.
  induction snapshots as [|s snapshots IH] using rev_ind; intros w Hbuy Hl.
  - exists w, ∅. split; [done|]. split; [done|]. intros c. apply lookup_empty.
  - apply Forall_app in Hbuy as [Hbuy Hs].
    apply Forall_cons in Hs as [Hs _].
    destruct (IH w Hbuy Hl) as (w1 & h1 & Hrun1 & Hl1 & Hh1).
    destruct (track_price_changes_ok s l w1 h1 Hs Hl1) as (h2 & Hrun2 & Hh2).
    eexists _, h2. split.
    { unfold track_all in *. rewrite for_each_app, Hrun1, for_each_cons, Hrun2.
      reflexivity. }
    split; [simpl; by eapply heap_insert_lookup|].
    intros c. rewrite Hh2, seen_snoc.
    assert (sequence_of h1 c = slice_last history_size (seen c snapshots)) as Hseq.
    { unfold sequence_of. rewrite Hh1. by destruct (seen c snapshots). }
    destruct (buy_price s c) as [b|].
    + rewrite Hseq. simpl. rewrite slice_last_app.
      by destruct (seen c snapshots).
    + rewrite app_nil_r, Hh1. destruct (seen c snapshots) as [|x xs]; [done|].
      simpl. by rewrite slice_last_idemp.
Qed.

(** C3.  Tickers fed in order to a dictionary that starts empty: after any
    number of them, the sequence of a currency is the last 5 (or fewer) of
    the buy prices the tickers so far gave for it, oldest first; its length
    is the smaller of 5 and the number of those tickers; and the currency
    has no sequence exactly when no ticker had it. *)
Theorem history_is_last_five (l : loc) (snapshots : list Snapshot) (w : world) :
  Forall has_buy snapshots →
  heap w !! l = Some ∅ →
  ∃ w' h',
    track_all snapshots l w = (Ok tt, w')
    ∧ heap w' !! l = Some h'
    ∧ ∀ c,
        sequence_of h' c = slice_last 5 (seen c snapshots)
        ∧ length (sequence_of h' c) = Nat.min (length (seen c snapshots)) 5
        ∧ (h' !! c = None ↔ seen c snapshots = []).
Proof.
  intros Hbuy Hl.
  destruct (track_all_ok l snapshots w Hbuy Hl) as (w' & h' & Hrun & Hl' & Hh').
  exists w', h'. split; [done|]. split; [done|]. intros c.
  assert (sequence_of h' c = slice_last 5 (seen c snapshots)) as Hseq.
  { unfold sequence_of. rewrite Hh'. by destruct (seen c snapshots). }
  split; [exact Hseq|]. split.
  - by rewrite Hseq, slice_last_length.
  - rewrite Hh'. by destruct (seen c snapshots).
Qed.

(** ** Running [calculate_statistics] *)

Lemma comprehension_buy (ds : list Details) (w : world) :
  comprehension (λ details, getitem details "buy") ds w =
  (match mapM (λ details : Details, details !! "buy") ds with
   | Some buys => Ok buys
   | None => Raise (KeyError "buy")
   end, w).
Proof.
  induction ds as [|d ds IH]; [done|].
  cbn [comprehension]. rewrite run_bind. unfold getitem at 1.
  destruct (d !! "buy") as [b|] eqn:Hb; [|by simpl; rewrite Hb].
  rewrite run_ret, run_bind, IH. simpl. rewrite Hb. simpl.
  by destruct (mapM _ ds).
Qed.

Lemma has_buy_values (real_time_data : Snapshot) :
  has_buy real_time_data ↔
  Forall (λ details : Details, is_Some (details !! "buy")) (dict_values real_time_data).
Proof.
  unfold has_buy, dict_values. rewrite map_Forall_to_list, Forall_fmap.
  apply Forall_proper; [|done]. by intros [c d].
Qed.

Lemma mapM_buy_all (ds : list Details) :
  Forall (λ details : Details, is_Some (details !! "buy")) ds →
  mapM (λ details : Details, details !! "buy") ds
    = Some (omap (λ details : Details, details !! "buy") ds).
Proof.
  induction 1 as [|d ds [b Hb] _ IH]; [done|].
  simpl. rewrite Hb. simpl. by rewrite IH.
Qed.

Lemma mapM_buy_missing (ds : list Details) :
  ¬ Forall (λ details : Details, is_Some (details !! "buy")) ds →
  mapM (λ details : Details, details !! "buy") ds = None.
Proof.
  intros Hnot. destruct (mapM _ ds) as [buys|] eqn:Hm; [|done].
  exfalso. apply Hnot. apply mapM_Some in Hm.
  induction Hm; constructor; eauto.
Qed.

Lemma calculate_statistics_ok (real_time_data : Snapshot) (w : world) :
  has_buy real_time_data →
  calculate_statistics real_time_data w =
    (Ok tt,
     World (heap w)
           (out w ++ [Print (MeanBuyPrice (np_mean (buy_prices_of real_time_data)));
                      Print (MedianBuyPrice (np_median (buy_prices_of real_time_data)));
                      Print (StdDevBuyPrices (np_std (buy_prices_of real_time_data)))])).
Proof.
  intros Hbuy%has_buy_values. unfold calculate_statistics.
  rewrite run_bind, comprehension_buy, (mapM_buy_all _ Hbuy).
  unfold print, emit. rewrite !run_bind. simpl.
  by rewrite <- !app_assoc.
Qed.

Lemma calculate_statistics_raises (real_time_data : Snapshot) (w : world) :
  ¬ has_buy real_time_data →
  calculate_statistics real_time_data w = (Raise (KeyError "buy"), w).
Proof.
  intros Hbuy. unfold calculate_statistics.
  rewrite run_bind, comprehension_buy, mapM_buy_missing; [done|].
  by rewrite <- has_buy_values.
Qed.

(** ** Which objects a computation writes *)

Lemma only_writes_refl l w : only_writes l w w.
Proof. by split. Qed.

Lemma only_writes_trans l w1 w2 w3 :
  only_writes l w1 w2 → only_writes l w2 w3 → only_writes l w1 w3.
Proof.
  intros [Hlen1 H1] [Hlen2 H2]. split; [congruence|].
  intros l' Hl'. by rewrite H2, H1.
Qed.

Lemma writes_ret {A} l (a : A) : writes_only l (mret a : M A).
Proof. intros w. apply only_writes_refl. Qed.

Lemma writes_raise {A} l e : writes_only l (raise e : M A).
Proof. intros w. apply only_writes_refl. Qed.

Lemma writes_emit l e : writes_only l (emit e).
Proof. intros w. by split. Qed.

Lemma writes_load l l' : writes_only l (load l').
Proof. intros w. apply only_writes_refl. Qed.

Lemma writes_store l h : writes_only l (store l h).
Proof.
  intros w. split; simpl.
  - apply length_insert.
  - intros l' Hl'. by apply list_lookup_insert_ne.
Qed.

Lemma writes_getitem l d key : writes_only l (getitem d key).
Proof. intros w. unfold getitem. destruct (d !! key); apply only_writes_refl. Qed.

Lemma writes_bind {A B} l (m : M A) (f : A → M B) :
  writes_only l m → (∀ a, writes_only l (f a)) → writes_only l (m ≫= f).
Proof.
  intros Hm Hf w. rewrite run_bind. specialize (Hm w).
  destruct (m w) as [[a|e] w1]; simpl in *; [|done].
  eapply only_writes_trans; [exact Hm | apply Hf].
Qed.

Lemma writes_for_each {A} l (xs : list A) (body : A → M unit) :
  (∀ x, writes_only l (body x)) → writes_only l (for_each xs body).
Proof.
  intros Hbody. induction xs as [|x xs IH]; simpl.
  - apply writes_ret.
  - apply writes_bind; [apply Hbody | intros _; exact IH].
Qed.

Lemma writes_comprehension {A B} l (f : A → M B) (xs : list A) :
  (∀ x, writes_only l (f x)) → writes_only l (comprehension f xs).
Proof.
  intros Hf. induction xs as [|x xs IH]; simpl.
  - apply writes_ret.
  - apply writes_bind; [apply Hf|]. intros y.
    apply writes_bind; [exact IH|]. intros ys. apply writes_ret.
Qed.

Create HintDb writes.
#[local] Hint Resolve writes_ret writes_raise writes_emit writes_load
  writes_store writes_getitem writes_bind writes_for_each
  writes_comprehension : writes.
#[local] Hint Extern 1 (writes_only _ (print _)) => unfold print : writes.
#[local] Hint Extern 1 (writes_only _ (time_sleep _)) => unfold time_sleep : writes.

Lemma writes_calculate_statistics l real_time_data :
  writes_only l (calculate_statistics real_time_data).
Proof. unfold calculate_statistics. auto 10 with writes. Qed.

Lemma writes_track_price_changes l real_time_data :
  writes_only l (track_price_changes real_time_data l).
Proof.
  unfold track_price_changes.
  apply writes_bind; [|intros _; apply writes_bind; [auto with writes|intros h]].
  - apply writes_for_each. intros [c d]. unfold record_buy.
    apply writes_bind; [auto with writes|]. intros h.
    apply writes_bind; [case_decide; auto with writes|]. intros _.
    auto 10 with writes.
  - apply writes_bind; [|intros _; apply writes_bind; [auto with writes|intros h']].
    + apply writes_for_each. intros c. unfold trim. auto 10 with writes.
    + apply writes_for_each. intros [c p]. unfold print_trend. auto with writes.
Qed.

Lemma writes_poll_iteration url l r : writes_only l (poll_iteration url l r).
Proof.
  unfold poll_iteration. apply writes_bind; [auto with writes|]. intros _.
  case_decide; [|auto with writes].
  apply writes_bind.
  { unfold response_json. destruct (json_body r); auto with writes. }
  intros real_time_data.
  pose proof (writes_calculate_statistics l real_time_data).
  pose proof (writes_track_price_changes l real_time_data).
  auto 12 with writes.
Qed.

Lemma writes_poll_loop url l responses : writes_only l (poll_loop url l responses).
Proof. apply writes_for_each. intros r. apply writes_poll_iteration. Qed.

(** ** The poll loop *)

Lemma poll_iteration_failed url l r w :
  fetch_failed r →
  poll_iteration url l r w =
    (Ok tt, World (heap w)
                  (out w ++ [Get url; Print (ErrorFetchingData (status_code r))])).
Proof.
  intros Hfail. unfold poll_iteration, print, emit.
  rewrite run_bind. simpl. rewrite decide_False by exact Hfail.
  simpl. by rewrite <- app_assoc.
Qed.

(** The round of a usable 200 response updates the dictionary it was given
    and ends with the sleep of line 71. *)
Lemma poll_iteration_success url l r real_time_data w h :
  status_code r = 200%Z →
  json_body r = Some real_time_data →
  has_buy real_time_data →
  heap w !! l = Some h →
  ∃ w' h' trace,
    poll_iteration url l r w = (Ok tt, w')
    ∧ heap w' = <[l := h']> (heap w)
    ∧ (∀ c, h' !! c =
            slice_last history_size <$>
              match buy_price real_time_data c with
              | Some b => Some (sequence_of h c ++ [b])
              | None => h !! c
              end)
    ∧ out w' = out w ++ Get url :: trace ++ [Sleep 10].
Proof.
  intros Hstatus Hbody Hbuy Hl. unfold poll_iteration.
  rewrite run_bind. unfold emit at 1.
  rewrite decide_True by exact Hstatus.
  rewrite run_bind. unfold response_json. rewrite Hbody, run_ret.
  unfold print.
  do 3 (rewrite run_bind; unfold emit at 1).
  rewrite run_bind, calculate_statistics_ok by exact Hbuy.
  rewrite run_bind.
  match goal with |- context [track_price_changes _ _ ?w0] =>
    destruct (track_price_changes_ok real_time_data l w0 h Hbuy Hl)
      as (h' & Hrun & Hh'); rewrite Hrun
  end.
  unfold time_sleep, emit. cbn [heap out].
  eexists _, h',
          ([Print Separator; Print (NewDataReceived real_time_data);
            Print Separator;
            Print (MeanBuyPrice (np_mean (buy_prices_of real_time_data)));
            Print (MedianBuyPrice (np_median (buy_prices_of real_time_data)));
            Print (StdDevBuyPrices (np_std (buy_prices_of real_time_data)))]
           ++ trend_lines h').
  split; [reflexivity|]. cbn [heap out].
  split; [reflexivity|]. split; [exact Hh'|].
  rewrite <- !app_assoc. reflexivity.
Qed.

Lemma main_start (responses : list response) :
  main responses initial_world =
  poll_loop real_time_api_url 1 responses (World [∅; ∅] []).
Proof. reflexivity. Qed.

(** C6.  The failure branch does not reach the sleep: two failed fetches
    in a row give two requests with nothing but the error line between
    them, and the trace holds no sleep. *)
Theorem failed_fetch_skips_sleep :
  out (main [Response 500 None; Response 500 None] initial_world).2
    = [Get real_time_api_url; Print (ErrorFetchingData 500);
       Get real_time_api_url; Print (ErrorFetchingData 500)]
  ∧ sleeps (out (main [Response 500 None; Response 500 None] initial_world).2)
    = false.
Proof. split; vm_compute; reflexivity. Qed.


(** C8.  A 200 response whose body is no JSON, or has a record without
    [buy], at any round: the exception ([JSONDecodeError], or the
    [KeyError] raised in [calculate_statistics]) is the outcome of the whole
    program, the responses after it are never fetched, and the histories
    are the ones of the round before. *)
Theorem malformed_body_is_fatal (before rest : list response) (r : response)
    (w1 : world) :
  main before initial_world = (Ok tt, w1) →
  status_code r = 200%Z →
  malformed r →
  ∃ w',
    main (before ++ r :: rest) initial_world = (Raise (fault_of r), w')
    ∧ heap w' = heap w1
    ∧ ¬ (∃ url, Get url ∈ drop (S (length (out w1))) (out w'))
    ∧ ∀ real_time_data w0,
        json_body r = Some real_time_data →
        calculate_statistics real_time_data w0 = (Raise (KeyError "buy"), w0).
Proof.
  intros Hbefore Hstatus Hbad. rewrite main_start in *. unfold poll_loop in *.
  rewrite for_each_app, Hbefore, for_each_cons.
  unfold poll_iteration, malformed, fault_of in *.
  rewrite run_bind. unfold emit at 1. simpl.
  rewrite decide_True by exact Hstatus.
  rewrite run_bind. unfold response_json.
  destruct (json_body r) as [real_time_data|].
  - rewrite run_ret. unfold print, emit. rewrite !run_bind. simpl.
    rewrite calculate_statistics_raises by exact Hbad.
    eexists. split; [reflexivity|]. split; [reflexivity|]. split.
    + cbn [out]. rewrite <- !app_assoc. cbn [app]. rewrite drop_past.
      intros [url Hin].
      repeat (apply elem_of_cons in Hin as [Hin|Hin]; [discriminate|]).
      by apply not_elem_of_nil in Hin.
    + intros snap w0 [= <-]. by apply calculate_statistics_raises.
  - eexists. split; [reflexivity|]. split; [reflexivity|]. split.
    + cbn [out]. rewrite drop_past. intros [url Hin].
      by apply not_elem_of_nil in Hin.
    + intros snap w0 [=].
Qed.

(** C9.  Whatever the responses, the program holds two dictionaries: the
    one of the module, still empty, and the one [poll_api] created. *)
Theorem module_history_stays_empty (responses : list response) :
  ∃ local_history : History,
    heap (main responses initial_world).2 = [∅; local_history]
    ∧ heap (main responses initial_world).2 !! module_prices_over_time = Some ∅.
Proof.
  rewrite main_start.
  destruct (writes_poll_loop real_time_api_url 1 responses (World [∅; ∅] []))
    as [Hlen Hother].
  specialize (Hother 0 ltac:(lia)).
  generalize dependent ((poll_loop real_time_api_url 1 responses
                           (World [∅; ∅] [])).2).
  intros w' Hlen Hother. cbn [heap] in Hlen, Hother.
  destruct (heap w') as [|g [|local_history [|]]]; try discriminate.
  injection Hother as ->. by exists local_history.
Qed.

(** ** The scenarios of the specification *)

(** Closed equations between dictionaries and lists are settled by
    evaluation. *)
Ltac evaluated := vm_compute; reflexivity.

(** Scenario 1: [{"USD": {"buy": 100.0}}] on an empty dictionary leaves
    [{"USD": [100.0]}]. *)
Lemma history_after_first_ticker :
  ∃ w' h',
    track_price_changes (ticker [("USD", 100%Q)]) 0 (World [∅] []) = (Ok tt, w')
    ∧ heap w' !! 0 = Some h'
    ∧ ∃ s, h' !! "USD" = Some s ∧ last s = Some 100%Q ∧ length s ≤ 5.
Proof.
  assert (has_buy (ticker [("USD", 100%Q)])) as Hbuy by compute_done.
  destruct (history_invariant (ticker [("USD", 100%Q)]) 0 (World [∅] []) ∅
              Hbuy eq_refl) as (w' & h' & Hrun & Hl & Hin & _).
  exists w', h'. split; [exact Hrun|]. split; [exact Hl|].
  assert (ticker [("USD", 100%Q)] !! "USD"
          = Some ({[ "buy" := 100%Q ]} : gmap string Q)) as Hlook by evaluated.
  assert (({[ "buy" := 100%Q ]} : gmap string Q) !! "buy" = Some 100%Q)
    as Hbuy100 by evaluated.
  destruct (Hin "USD" _ Hlook) as (b & s & Hb & Hs & Hlast & Hlen).
  rewrite Hbuy100 in Hb. injection Hb as <-.
  exists s. split; [exact Hs|]. split; [exact Hlast | exact Hlen].
Defined.

(** Scenario 3: six tickers with the USD buy prices 1..6 leave
    [2, 3, 4, 5, 6]. *)
Lemma history_after_six_tickers :
  ∃ w' h',
    track_all (map (λ buy, ticker [("USD", buy)]) [1; 2; 3; 4; 5; 6]%Q) 0
              (World [∅] []) = (Ok tt, w')
    ∧ heap w' !! 0 = Some h'
    ∧ h' !! "USD" = Some [2; 3; 4; 5; 6]%Q.
Proof.
  assert (Forall has_buy (map (λ buy, ticker [("USD", buy)]) [1; 2; 3; 4; 5; 6]%Q))
    as Hbuy by compute_done.
  assert (seen "USD" (map (λ buy, ticker [("USD", buy)]) [1; 2; 3; 4; 5; 6]%Q)
          = [1; 2; 3; 4; 5; 6]%Q) as Hseen by evaluated.
  destruct (history_is_last_five 0 _ (World [∅] []) Hbuy eq_refl)
    as (w' & h' & Hrun & Hl & Hseq).
  exists w', h'. split; [exact Hrun|]. split; [exact Hl|].
  destruct (Hseq "USD") as (Hlast & _ & Hnone).
  rewrite Hseen in Hlast, Hnone.
  unfold sequence_of in Hlast. destruct (h' !! "USD") as [s|].
  - f_equal. exact Hlast.
  - destruct Hnone as [Hnone _]. discriminate (Hnone eq_refl).
Defined.

(** A currency that left the ticker is cut and not extended. *)
Lemma absent_currency_is_trimmed :
  ∃ w' h',
    track_price_changes (ticker [("USD", 9%Q)]) 0
      (World [ {[ "EUR" := [1; 2; 3; 4; 5; 6; 7]%Q ]} ] []) = (Ok tt, w')
    ∧ heap w' !! 0 = Some h'
    ∧ h' !! "EUR" = Some [3; 4; 5; 6; 7]%Q
    ∧ h' !! "USD" = Some [9%Q]
    ∧ h' !! "GBP" = None.
Proof.
  set (h := {[ "EUR" := [1; 2; 3; 4; 5; 6; 7]%Q ]} : gmap string (list Q)).
  set (t := ticker [("USD", 9%Q)]).
  assert (has_buy t) as Hbuy by compute_done.
  assert (t !! "EUR" = None) as Ht_eur by evaluated.
  assert (t !! "GBP" = None) as Ht_gbp by evaluated.
  assert (t !! "USD" = Some ({[ "buy" := 9%Q ]} : gmap string Q)) as Ht_usd
    by evaluated.
  assert (({[ "buy" := 9%Q ]} : gmap string Q) !! "buy" = Some 9%Q) as Hnine
    by evaluated.
  assert (h !! "EUR" = Some [1; 2; 3; 4; 5; 6; 7]%Q) as Hh_eur by evaluated.
  assert (h !! "GBP" = None) as Hh_gbp by evaluated.
  assert (sequence_of h "USD" = []) as Hh_usd by evaluated.
  destruct (trim_reaches_every_currency t 0 (World [h] []) h Hbuy eq_refl)
    as (w' & h' & Hrun & Hl & Habsent & Hpresent & Hnone).
  exists w', h'. split; [exact Hrun|]. split; [exact Hl|]. split.
  - exact (Habsent "EUR" _ Ht_eur Hh_eur).
  - split.
    + rewrite (Hpresent "USD" _ 9%Q Ht_usd Hnine), Hh_usd. reflexivity.
    + exact (Hnone "GBP" Ht_gbp Hh_gbp).
Defined.

(** The same ticker twice: the price is there twice. *)
Lemma same_ticker_twice_appends_twice :
  ∃ w' h',
    (track_price_changes (ticker [("USD", 9%Q)]) 0;;
     track_price_changes (ticker [("USD", 9%Q)]) 0)
      (World [ {[ "USD" := [1; 2; 3; 4]%Q ]} ] []) = (Ok tt, w')
    ∧ heap w' !! 0 = Some h'
    ∧ h' !! "USD" = Some [2; 3; 4; 9; 9]%Q
    ∧ length (sequence_of h' "USD") = 5.
Proof.
  set (h := {[ "USD" := [1; 2; 3; 4]%Q ]} : gmap string (list Q)).
  set (t := ticker [("USD", 9%Q)]).
  assert (has_buy t) as Hbuy by compute_done.
  assert (t !! "USD" = Some ({[ "buy" := 9%Q ]} : gmap string Q)) as Ht_usd
    by evaluated.
  assert (({[ "buy" := 9%Q ]} : gmap string Q) !! "buy" = Some 9%Q) as Hnine
    by evaluated.
  assert (sequence_of h "USD" = [1; 2; 3; 4]%Q) as Hh_usd by evaluated.
  destruct (same_snapshot_twice t 0 (World [h] []) h Hbuy eq_refl)
    as (w' & h' & Hrun & Hl & Htwice).
  exists w', h'. split; [exact Hrun|]. split; [exact Hl|].
  destruct (Htwice "USD" _ 9%Q Ht_usd Hnine) as [Hseq Hlen].
  rewrite Hh_usd in Hseq, Hlen. split; [exact Hseq | exact Hlen].
Defined.

(** An empty ticker on [{"USD": [1, 2]}]: the dictionary is as before. *)
Lemma empty_ticker_changes_nothing :
  ∃ w' printed,
    track_price_changes ∅ 0 (World [ {[ "USD" := [1; 2]%Q ]} ] []) = (Ok tt, w')
    ∧ heap w' = heap (World [ {[ "USD" := [1; 2]%Q ]} ] [])
    ∧ heap w' !! 0 = Some {[ "USD" := [1; 2]%Q ]}
    ∧ out w' = out (World [ {[ "USD" := [1; 2]%Q ]} ] []) ++ printed
    ∧ printed ≡ₚ trend_lines {[ "USD" := [1; 2]%Q ]}.
Proof.
  assert (bounded {[ "USD" := [1; 2]%Q ]}) as Hbounded by compute_done.
  exact (empty_snapshot_identity 0 (World [ {[ "USD" := [1; 2]%Q ]} ] [])
           {[ "USD" := [1; 2]%Q ]} eq_refl Hbounded).
Defined.


(** A record without [buy] in the second response ends the program with
    [KeyError]. *)
Lemma missing_buy_ends_the_program :
  ∃ w',
    main ([Response 500 None]
            ++ Response 200 (Some {[ "USD" := {[ "sell" := 1%Q ]} ]})
            :: [Response 500 None])
         initial_world = (Raise (KeyError "buy"), w')
    ∧ heap w' = [∅; ∅].
Proof.
  assert (malformed (Response 200 (Some {[ "USD" := {[ "sell" := 1%Q ]} ]})))
    as Hbad by (unfold malformed; cbn [json_body]; compute_done).
  assert (main [Response 500 None] initial_world
          = (Ok tt, World [∅; ∅] [Get real_time_api_url;
                                  Print (ErrorFetchingData 500)]))
    as Hbefore by evaluated.
  destruct (malformed_body_is_fatal [Response 500 None] [Response 500 None]
              (Response 200 (Some {[ "USD" := {[ "sell" := 1%Q ]} ]}))
              _ Hbefore eq_refl Hbad) as (w' & Hrun & Hheap & _).
  exists w'. split; [exact Hrun | exact Hheap].
Defined.

(** The dictionary of [poll_api] is the one that receives the prices: after
    one usable response it holds them, next to the empty one of the
    module. *)
Lemma local_history_is_written :
  ∃ local_history : History,
    heap (main [Response 200 (Some (ticker [("USD", 100%Q)]))] initial_world).2
      = [∅; local_history]
    ∧ local_history !! "USD" = Some [100%Q].
Proof.
  set (t := ticker [("USD", 100%Q)]).
  assert (has_buy t) as Hbuy by compute_done.
  assert (buy_price t "USD" = Some 100%Q) as Hprice by evaluated.
  rewrite main_start. unfold poll_loop. rewrite for_each_cons.
  destruct (poll_iteration_success real_time_api_url 1 (Response 200 (Some t)) t
              (World [∅; ∅] []) ∅ eq_refl eq_refl Hbuy eq_refl)
    as (w' & h' & trace & Hrun & Hheap & Hh' & _).
  rewrite Hrun. exists h'. split; [exact Hheap|].
  rewrite Hh', Hprice. reflexivity.
Qed.

(** * Further properties of the three functions *)

(** ** [calculate_statistics] *)

(** X1.  On an empty ticker [calculate_statistics] does not fail: numpy
    gives [nan] for the mean, the median and the standard deviation of no
    value, and the three lines are printed with it. *)
Theorem statistics_of_empty_ticker (w : world) :
  calculate_statistics ∅ w
    = (Ok tt, World (heap w)
                    (out w ++ [Print (MeanBuyPrice None);
                               Print (MedianBuyPrice None);
                               Print (StdDevBuyPrices None)])).
Proof.
  rewrite calculate_statistics_ok by apply map_Forall_empty.
  unfold buy_prices_of, dict_values. rewrite map_to_list_empty. reflexivity.
Qed.

(** X2.  [calculate_statistics] has two outcomes, and writes no dictionary
    in either: when every record has [buy] it returns, having printed its
    three lines and nothing else; when a record has none it raises
    [KeyError], having printed nothing. *)
Theorem statistics_change_no_object (real_time_data : Snapshot) (w : world) :
  (has_buy real_time_data
   ∧ ∃ mean median std,
       calculate_statistics real_time_data w
         = (Ok tt, World (heap w)
                         (out w ++ [Print (MeanBuyPrice mean);
                                    Print (MedianBuyPrice median);
                                    Print (StdDevBuyPrices std)])))
  ∨ (¬ has_buy real_time_data
     ∧ calculate_statistics real_time_data w = (Raise (KeyError "buy"), w)).
Proof.
  destruct (decide (has_buy real_time_data)) as [Hbuy|Hbuy].
  - left. split; [exact Hbuy|].
    rewrite calculate_statistics_ok by exact Hbuy. by eexists _, _, _.
  - right. split; [exact Hbuy|]. by apply calculate_statistics_raises.
Qed.

(** ** [track_price_changes] *)

(** Line 36 on one record: it never prints, and it fails exactly when the
    record has no [buy]. *)
Lemma record_buy_outcome l currency (details : Details) w :
  ∃ w',
    record_buy l (currency, details) w
      = (match details !! "buy" with
         | Some _ => Ok tt
         | None => Raise (KeyError "buy")
         end, w')
    ∧ out w' = out w.
Proof.
  unfold record_buy, getitem. rewrite run_bind. unfold load at 1.
  rewrite run_bind.
  destruct (decide (currency ∉ dom (default ∅ (heap w !! l)))).
  - unfold store at 1. rewrite run_bind. unfold load at 1.
    destruct (details !! "buy"); rewrite run_bind; by eexists.
  - rewrite run_ret, run_bind. unfold load at 1.
    destruct (details !! "buy"); rewrite run_bind; by eexists.
Qed.

Lemma first_loop_raises l (items : list (string * Details)) :
  ∀ w,
    Exists (λ item, item.2 !! "buy" = None) items →
    ∃ w', for_each items (record_buy l) w = (Raise (KeyError "buy"), w')
          ∧ out w' = out w.
Proof.
  induction items as [|[c d] items IH]; intros w Hmissing.
  - by apply Exists_nil in Hmissing.
  - rewrite for_each_cons.
    destruct (record_buy_outcome l c d w) as (w1 & -> & Hout).
    destruct (d !! "buy") as [b|] eqn:Hb.
    + apply Exists_cons in Hmissing as [Hhere|Hlater].
      { simpl in Hhere. congruence. }
      destruct (IH w1 Hlater) as (w' & Hrun & Hout').
      exists w'. split; [exact Hrun | congruence].
    + by exists w1.
Qed.

(** X5.  A ticker with a record that has no [buy]: [track_price_changes]
    raises [KeyError] from its first loop, prints no trend line and writes
    no other object than the dictionary it was given. *)
Theorem tracking_without_buy_raises (real_time_data : Snapshot) (l : loc)
    (w : world) :
  ¬ has_buy real_time_data →
  ∃ w',
    track_price_changes real_time_data l w = (Raise (KeyError "buy"), w')
    ∧ out w' = out w
    ∧ length (heap w') = length (heap w)
    ∧ ∀ l', l' ≠ l → heap w' !! l' = heap w !! l'.
Proof.
  intros Hbuy.
  assert (Exists (λ item : string * Details, item.2 !! "buy" = None)
                 (map_to_list real_time_data)) as Hmissing.
  { rewrite has_buy_values in Hbuy. unfold dict_values in Hbuy.
    rewrite Forall_fmap in Hbuy. apply not_Forall_Exists in Hbuy; [|apply _].
    eapply Exists_impl; [exact Hbuy|]. intros [c d] Hd. simpl in *.
    by apply eq_None_not_Some. }
  destruct (first_loop_raises l _ w Hmissing) as (w' & Hrun & Hout).
  pose proof (writes_track_price_changes l real_time_data w) as Hframe.
  unfold track_price_changes in *. rewrite run_bind, Hrun in *.
  exists w'. split; [reflexivity|]. split; [exact Hout|]. exact Hframe.
Qed.

(** X6.  A ticker with one record, which has no [buy]: when the currency
    is new, line 35 has already given it an empty sequence before line 36
    raises, and the dictionary keeps it; when the currency was tracked, the
    dictionary is as before. *)
Theorem failed_append_leaves_empty_sequence (currency : string)
    (details : Details) (l : loc) (w : world) (h : History) :
  details !! "buy" = None →
  heap w !! l = Some h →
  track_price_changes {[ currency := details ]} l w
    = (Raise (KeyError "buy"),
       World (<[l := if decide (currency ∈ dom h) then h
                     else <[currency := []]> h]> (heap w))
             (out w)).
Proof.
  intros Hb Hl. unfold track_price_changes.
  rewrite map_to_list_singleton, run_bind, for_each_cons.
  unfold record_buy, getitem. rewrite run_bind. unfold load at 1.
  rewrite Hl. simpl. rewrite run_bind.
  destruct (decide (currency ∉ dom h)) as [Hnew|Hold].
  - unfold store at 1. rewrite run_bind. unfold load at 1. simpl.
    rewrite Hb, run_bind. simpl.
    by rewrite decide_False by exact Hnew.
  - rewrite run_ret, run_bind. unfold load at 1. simpl.
    rewrite Hb, run_bind. simpl. apply dec_stable in Hold.
    rewrite decide_True by exact Hold.
    by rewrite list_insert_id, world_eta by exact Hl.
Qed.

(** X7.  [track_price_changes] drops no currency: after the call the
    dictionary has the currencies it had and those of the ticker. *)
Theorem tracked_currencies_only_grow (real_time_data : Snapshot) (l : loc)
    (w : world) (h : History) :
  has_buy real_time_data →
  heap w !! l = Some h →
  ∃ w' h',
    track_price_changes real_time_data l w = (Ok tt, w')
    ∧ heap w' !! l = Some h'
    ∧ dom h' = dom h ∪ dom real_time_data.
Proof.
  intros Hbuy Hl.
  destruct (track_price_changes_ok _ l w h Hbuy Hl) as (h' & Hrun & Hh').
  eexists _, h'. split; [exact Hrun|]. split.
  { simpl. by eapply heap_insert_lookup. }
  apply set_eq. intros c.
  rewrite elem_of_union, !elem_of_dom, Hh'. unfold buy_price.
  destruct (real_time_data !! c) as [d|] eqn:Hc; simpl.
  - destruct (Hbuy c d Hc) as [b Hb]. rewrite Hb. simpl.
    split; [intros _; right|]; eauto.
  - rewrite fmap_is_Some. split; [by left|].
    intros [?|[? ?]]; [done | discriminate].
Qed.


(** ** The rounds of [poll_api] *)


(** A malformed 200 response: the round raises and writes nothing. *)
Lemma poll_iteration_fault url l r w :
  status_code r = 200%Z →
  malformed r →
  ∃ trace,
    poll_iteration url l r w
      = (Raise (fault_of r), World (heap w) (out w ++ trace)).
Proof.
  intros Hstatus Hbad. unfold poll_iteration, malformed, fault_of in *.
  rewrite run_bind. unfold emit at 1.
  rewrite decide_True by exact Hstatus.
  rewrite run_bind. unfold response_json.
  destruct (json_body r) as [real_time_data|].
  - rewrite run_ret. unfold print.
    do 3 (rewrite run_bind; unfold emit at 1).
    rewrite run_bind, calculate_statistics_raises by exact Hbad.
    cbn [heap out]. eexists. rewrite <- !app_assoc. reflexivity.
  - by eexists.
Qed.

Lemma poll_iteration_keeps_bounded url l r w h :
  heap w !! l = Some h →
  bounded h →
  ∃ h', heap (poll_iteration url l r w).2 !! l = Some h' ∧ bounded h'.
Proof.
  intros Hl Hbounded.
  destruct (decide (status_code r = 200%Z)) as [Hstatus|Hfail].
  - destruct (json_body r) as [real_time_data|] eqn:Hbody.
    + destruct (decide (has_buy real_time_data)) as [Hbuy|Hbuy].
      * destruct (poll_iteration_success url l r _ w h Hstatus Hbody Hbuy Hl)
          as (w' & h' & trace & -> & Hheap & Hh' & _).
        exists h'. simpl. rewrite Hheap. split.
        -- by eapply heap_insert_lookup.
        -- apply bounded_slices. intros c. eexists. apply Hh'.
      * destruct (poll_iteration_fault url l r w Hstatus) as [trace ->].
        { unfold malformed. by rewrite Hbody. }
        by exists h.
    + destruct (poll_iteration_fault url l r w Hstatus) as [trace ->].
      { unfold malformed. by rewrite Hbody. }
      by exists h.
  - rewrite poll_iteration_failed by exact Hfail. by exists h.
Qed.

Lemma poll_loop_keeps_bounded url l (responses : list response) :
  ∀ w h,
    heap w !! l = Some h →
    bounded h →
    ∃ h', heap (poll_loop url l responses w).2 !! l = Some h' ∧ bounded h'.
Proof.
  unfold poll_loop.
  induction responses as [|r responses IH]; intros w h Hl Hbounded.
  - by exists h.
  - rewrite for_each_cons.
    destruct (poll_iteration_keeps_bounded url l r w h Hl Hbounded)
      as (h1 & Hl1 & Hbounded1).
    destruct (poll_iteration url l r w) as [[[]|e] w1]; simpl in Hl1.
    + by apply (IH w1 h1).
    + by exists h1.
Qed.

(** X10.  Whatever the server answers and however the run ends, the
    dictionary of [poll_api] never holds a sequence of more than 5 prices. *)
Theorem poll_history_stays_bounded (responses : list response) :
  ∃ local_history : History,
    heap (main responses initial_world).2 = [∅; local_history]
    ∧ ∀ c s, local_history !! c = Some s → length s ≤ 5.
Proof.
  rewrite main_start.
  destruct (writes_poll_loop real_time_api_url 1 responses (World [∅; ∅] []))
    as [Hlen Hother].
  specialize (Hother 0 ltac:(lia)).
  destruct (poll_loop_keeps_bounded real_time_api_url 1 responses
              (World [∅; ∅] []) ∅ eq_refl (map_Forall_empty _))
    as (h' & Hl & Hbounded).
  generalize dependent ((poll_loop real_time_api_url 1 responses
                           (World [∅; ∅] [])).2).
  intros w' Hlen Hother Hl. cbn [heap] in Hlen, Hother.
  destruct (heap w') as [|g [|local_history [|]]]; try discriminate.
  injection Hother as ->. injection Hl as ->.
  exists h'. split; [reflexivity | exact Hbounded].
Qed.

(** One more ticker: the dictionary still holds the last prices seen. *)
Lemma last_five_step (h h' : History) (snapshots : list Snapshot) (s : Snapshot) :
  (∀ c, h !! c = match seen c snapshots with
                 | [] => None
                 | _ => Some (slice_last history_size (seen c snapshots))
                 end) →
  (∀ c, h' !! c = slice_last history_size <$>
                    match buy_price s c with
                    | Some b => Some (sequence_of h c ++ [b])
                    | None => h !! c
                    end) →
  ∀ c, h' !! c = match seen c (snapshots ++ [s]) with
                 | [] => None
                 | _ => Some (slice_last history_size (seen c (snapshots ++ [s])))
                 end.
Proof.
  intros Hh Hh' c. rewrite Hh', seen_snoc.
  assert (sequence_of h c = slice_last history_size (seen c snapshots)) as Hseq.
  { unfold sequence_of. rewrite Hh. by destruct (seen c snapshots). }
  destruct (buy_price s c) as [b|].
  - rewrite Hseq. simpl. rewrite slice_last_app.
    by destruct (seen c snapshots).
  - rewrite app_nil_r, Hh. destruct (seen c snapshots) as [|x xs]; [done|].
    simpl. by rewrite slice_last_idemp.
Qed.

Lemma fetched_snoc (responses : list response) (r : response) :
  fetched (responses ++ [r]) =
  fetched responses
  ++ (if decide (status_code r = 200%Z)
      then match json_body r with Some s => [s] | None => [] end
      else []).
Proof.
  unfold fetched. rewrite omap_app. f_equal. simpl.
  case_decide; [|done]. by destruct (json_body r).
Qed.

(** The dictionary of the loop after responses that all let their round
    finish. *)
Lemma poll_loop_history url l (responses : list response) :
  ∀ w,
    Forall usable responses →
    heap w !! l = Some ∅ →
    ∃ w' h',
      poll_loop url l responses w = (Ok tt, w')
      ∧ heap w' = <[l := h']> (heap w)
      ∧ ∀ c, h' !! c = match seen c (fetched responses) with
                       | [] => None
                       | _ => Some (slice_last history_size
                                               (seen c (fetched responses)))
                       end.
Proof.
  unfold poll_loop.
  induction responses as [|r responses IH] using rev_ind; intros w Husable Hl.
  - exists w, ∅. split; [done|]. split.
    + by rewrite list_insert_id.
    + intros c. apply lookup_empty.
  - apply Forall_app in Husable as [Husable Hr].
    apply Forall_cons in Hr as [Hr _].
    destruct (IH w Husable Hl) as (w1 & h1 & Hrun1 & Hheap1 & Hh1).
    assert (heap w1 !! l = Some h1) as Hl1.
    { rewrite Hheap1. by eapply heap_insert_lookup. }
    rewrite for_each_app, Hrun1, for_each_cons, fetched_snoc.
    unfold usable in Hr.
    destruct (decide (status_code r = 200%Z)) as [Hstatus|Hfail].
    + destruct (json_body r) as [s|] eqn:Hbody; [|done].
      destruct (poll_iteration_success url l r s w1 h1 Hstatus Hbody Hr Hl1)
        as (w2 & h2 & trace & -> & Hheap2 & Hh2 & _).
      exists w2, h2. split; [done|]. split.
      * by rewrite Hheap2, Hheap1, list_insert_insert_eq.
      * by apply (last_five_step h1).
    + rewrite poll_iteration_failed by exact Hfail.
      eexists _, h1. split; [done|]. split; [exact Hheap1|].
      by rewrite app_nil_r.
Qed.


Lemma fetched_filter (responses : list response) :
  fetched (filter (λ r, status_code r = 200%Z) responses) = fetched responses.
Proof.
  unfold fetched. induction responses as [|r responses IH]; [done|].
  rewrite filter_cons.
  destruct (decide (status_code r = 200%Z)) as [Hstatus|Hfail]; simpl.
  - rewrite decide_True by exact Hstatus.
    destruct (json_body r); [f_equal|]; exact IH.
  - rewrite decide_False by exact Hfail. exact IH.
Qed.

(** X12.  Failed fetches leave no mark on the history: in a run where
    every round finishes, the dictionaries are the ones the 200 responses
    alone would give. *)
Theorem failed_fetches_leave_history (responses : list response) :
  Forall usable responses →
  heap (main responses initial_world).2
  = heap (main (filter (λ r, status_code r = 200%Z) responses) initial_world).2.
Proof.
  intros Husable.
  assert (Forall usable (filter (λ r, status_code r = 200%Z) responses))
    as Husable'.
  { apply Forall_forall. intros r [_ Hr]%list_elem_of_filter.
    by eapply Forall_forall in Husable. }
  rewrite !main_start.
  destruct (poll_loop_history real_time_api_url 1 responses (World [∅; ∅] [])
              Husable eq_refl) as (w1 & h1 & Hrun1 & Hheap1 & Hh1).
  destruct (poll_loop_history real_time_api_url 1 _ (World [∅; ∅] [])
              Husable' eq_refl) as (w2 & h2 & Hrun2 & Hheap2 & Hh2).
  rewrite Hrun1, Hrun2. cbn [snd]. rewrite Hheap1, Hheap2.
  f_equal. apply map_eq. intros c.
  by rewrite Hh1, Hh2, fetched_filter.
Qed.

(** ** What the program emits *)

Lemma emits_ret {A} P (a : A) : emits_only P (mret a : M A).
Proof. intros w. exists []. by rewrite app_nil_r. Qed.

Lemma emits_raise {A} P e : emits_only P (raise e : M A).
Proof. intros w. exists []. by rewrite app_nil_r. Qed.

Lemma emits_emit (P : event → Prop) e : P e → emits_only P (emit e).
Proof. intros He w. exists [e]. split; [done | by constructor]. Qed.

Lemma emits_load P l : emits_only P (load l).
Proof. intros w. exists []. by rewrite app_nil_r. Qed.

Lemma emits_store P l h : emits_only P (store l h).
Proof. intros w. exists []. by rewrite app_nil_r. Qed.

Lemma emits_new_dict P : emits_only P new_dict.
Proof. intros w. exists []. by rewrite app_nil_r. Qed.

Lemma emits_getitem P d key : emits_only P (getitem d key).
Proof.
  intros w. exists []. unfold getitem.
  destruct (d !! key); by rewrite app_nil_r.
Qed.

Lemma emits_bind {A B} P (m : M A) (f : A → M B) :
  emits_only P m → (∀ a, emits_only P (f a)) → emits_only P (m ≫= f).
Proof.
  intros Hm Hf w. rewrite run_bind. destruct (Hm w) as (t1 & Hout1 & Ht1).
  destruct (m w) as [[a|e] w1]; simpl in *; [|by exists t1].
  destruct (Hf a w1) as (t2 & Hout2 & Ht2).
  exists (t1 ++ t2). split.
  - by rewrite Hout2, Hout1, app_assoc.
  - by apply Forall_app.
Qed.

Lemma emits_for_each {A} P (xs : list A) (body : A → M unit) :
  (∀ x, emits_only P (body x)) → emits_only P (for_each xs body).
Proof.
  intros Hbody. induction xs as [|x xs IH]; simpl.
  - apply emits_ret.
  - apply emits_bind; [apply Hbody | intros _; exact IH].
Qed.

Lemma emits_comprehension {A B} P (f : A → M B) (xs : list A) :
  (∀ x, emits_only P (f x)) → emits_only P (comprehension f xs).
Proof.
  intros Hf. induction xs as [|x xs IH]; simpl.
  - apply emits_ret.
  - apply emits_bind; [apply Hf|]. intros y.
    apply emits_bind; [exact IH|]. intros ys. apply emits_ret.
Qed.

Create HintDb emits.
#[local] Hint Resolve emits_ret emits_raise emits_load emits_store
  emits_new_dict emits_getitem emits_bind emits_for_each
  emits_comprehension : emits.
#[local] Hint Extern 1 (emits_only script_event (print _)) =>
  apply emits_emit; exact I : emits.
#[local] Hint Extern 1 (emits_only script_event (time_sleep _)) =>
  apply emits_emit; reflexivity : emits.
#[local] Hint Extern 1 (emits_only script_event (emit (Get _))) =>
  apply emits_emit; reflexivity : emits.

Lemma emits_calculate_statistics real_time_data :
  emits_only script_event (calculate_statistics real_time_data).
Proof. unfold calculate_statistics. auto 10 with emits. Qed.

Lemma emits_track_price_changes real_time_data l :
  emits_only script_event (track_price_changes real_time_data l).
Proof.
  unfold track_price_changes.
  apply emits_bind; [|intros _; apply emits_bind; [auto with emits|intros h]].
  - apply emits_for_each. intros [c d]. unfold record_buy.
    apply emits_bind; [auto with emits|]. intros h.
    apply emits_bind; [case_decide; auto with emits|]. intros _.
    auto 10 with emits.
  - apply emits_bind; [|intros _; apply emits_bind; [auto with emits|intros h']].
    + apply emits_for_each. intros c. unfold trim. auto 10 with emits.
    + apply emits_for_each. intros [c p]. unfold print_trend. auto with emits.
Qed.

Lemma emits_poll_iteration l r :
  emits_only script_event (poll_iteration real_time_api_url l r).
Proof.
  unfold poll_iteration. apply emits_bind; [auto with emits|]. intros _.
  case_decide; [|auto with emits].
  apply emits_bind.
  { unfold response_json. destruct (json_body r); auto with emits. }
  intros real_time_data.
  pose proof (emits_calculate_statistics real_time_data).
  pose proof (emits_track_price_changes real_time_data l).
  auto 12 with emits.
Qed.

(** X13.  Whatever the server answers and however the run ends, the
    program requests no other URL than the ticker's and never sleeps for
    another time than 10 seconds: its trace is made of such requests, such
    sleeps and printed lines. *)
Theorem program_emits_script_events (responses : list response) :
  Forall script_event (out (main responses initial_world).2).
Proof.
  assert (emits_only script_event (main responses)) as Hmain.
  { unfold main, poll_api, poll_loop.
    apply emits_bind; [apply emits_new_dict|]. intros _.
    apply emits_bind; [apply emits_new_dict|]. intros l.
    apply emits_for_each. intros r. apply emits_poll_iteration. }
  destruct (Hmain initial_world) as (trace & -> & Htrace). exact Htrace.
Qed.

(** ** Instances *)

Lemma tracking_a_record_without_buy :
  ∃ w',
    track_price_changes {[ "USD" := {[ "sell" := 1%Q ]} ]} 0 (World [∅] [])
      = (Raise (KeyError "buy"), w')
    ∧ out w' = out (World [∅] [])
    ∧ length (heap w') = length (heap (World [∅] []))
    ∧ ∀ l', l' ≠ 0 → heap w' !! l' = heap (World [∅] []) !! l'.
Proof.
  assert (¬ has_buy {[ "USD" := ({[ "sell" := 1%Q ]} : gmap string Q) ]})
    as Hbuy by compute_done.
  exact (tracking_without_buy_raises _ 0 (World [∅] []) Hbuy).
Defined.

Lemma new_currency_without_buy_is_left_empty :
  track_price_changes {[ "USD" := {[ "sell" := 1%Q ]} ]} 0 (World [∅] [])
    = (Raise (KeyError "buy"), World [ {[ "USD" := [] ]} ] []).
Proof.
  assert (({[ "sell" := 1%Q ]} : gmap string Q) !! "buy" = None) as Hb
    by evaluated.
  rewrite (failed_append_leaves_empty_sequence "USD" _ 0 (World [∅] []) ∅
             Hb eq_refl).
  evaluated.
Defined.

Lemma currencies_after_a_new_ticker :
  ∃ w' h',
    track_price_changes (ticker [("USD", 9%Q)]) 0
      (World [ {[ "EUR" := [1%Q] ]} ] []) = (Ok tt, w')
    ∧ heap w' !! 0 = Some h'
    ∧ dom h' = dom ({[ "EUR" := [1%Q] ]} : gmap string (list Q))
               ∪ dom (ticker [("USD", 9%Q)]).
Proof.
  assert (has_buy (ticker [("USD", 9%Q)])) as Hbuy by compute_done.
  exact (tracked_currencies_only_grow (ticker [("USD", 9%Q)]) 0
           (World [ {[ "EUR" := [1%Q] ]} ] []) {[ "EUR" := [1%Q] ]}
           Hbuy eq_refl).
Defined.




Lemma history_without_the_failed_fetches :
  heap (main [Response 500 None;
              Response 200 (Some (ticker [("USD", 1%Q)]));
              Response 404 None] initial_world).2
  = heap (main (filter (λ r, status_code r = 200%Z)
                       [Response 500 None;
                        Response 200 (Some (ticker [("USD", 1%Q)]));
                        Response 404 None]) initial_world).2.
Proof.
  assert (Forall usable [Response 500 None;
                         Response 200 (Some (ticker [("USD", 1%Q)]));
                         Response 404 None]) as Husable by compute_done.
  exact (failed_fetches_leave_history _ Husable).
Defined.
